(** * Gaussian Extractor: the Sphinx configuration module [docs/conf.py]

    The repository slice holds one Python module, [docs/conf.py].  Sphinx
    executes its top-level statements in a namespace and afterwards calls the
    [setup] hook it defines.  This development embeds the module as a program
    in a small state-and-exception monad over the part of the interpreter the
    module can see (its namespace, [sys.path], the live objects and
    [os.path.abspath]) and proves the properties the specification states
    about it. *)

From Stdlib Require Import Ascii String.
From stdpp Require Import gmap strings list fin_maps.

Set Warnings "-register-all".
Open Scope string_scope.
Open Scope Z_scope.

(** ** Python values and the interpreter state *)

Module Py.

(** The values the module builds.  Dictionaries are keyed by [str] only, which
    is all the module uses.  A module object and a function object are named
    by their qualified names; an arbitrary object is a reference into the
    store of live objects. *)
Inductive value : Type :=
  | VNone
  | VBool (b : bool)
  | VInt (z : Z)
  | VStr (s : string)
  | VList (l : list value)
  | VTuple (l : list value)
  | VDict (d : gmap string value)
  | VModule (m : string)
  | VFunction (f : string)
  | VObject (r : positive).

Inductive exn : Type :=
  | NameError (n : string)
  | AttributeError (n : string).

Inductive result (A : Type) : Type :=
  | Ok (a : A)
  | Raise (e : exn).
Arguments Ok {A} a.
Arguments Raise {A} e.

(** What the module can observe or change: the namespace it is executed in,
    the list [sys.path], the attribute dictionaries of the live objects (the
    Sphinx application among them), and [os.path.abspath], a library function
    of the platform and of the working directory. *)
Record Interp : Type := MkInterp {
  globals : gmap string value;
  sys_path : list string;
  objects : gmap positive (gmap string value);
  abspath : string → string;
}.

Definition M (A : Type) : Type := Interp → result A * Interp.

Definition run {A} (m : M A) (s : Interp) : result A * Interp := m s.

#[global] Instance M_ret : MRet M := λ A a s, (Ok a, s).

#[global] Instance M_bind : MBind M := λ A B f m s,
  match m s with
  | (Ok a, s') => f a s'
  | (Raise e, s') => (Raise e, s')
  end.

Definition raise {A} (e : exn) : M A := λ s, (Raise e, s).

(** [n = v] at module level. *)
Definition assign (n : string) (v : value) : M unit := λ s,
  (Ok tt, MkInterp (<[n := v]> (globals s)) (sys_path s) (objects s) (abspath s)).

(** Reading the name [n] in the module's namespace.  None of the names the
    module reads is a builtin, so a name that is not bound there is an error. *)
Definition name (n : string) : M value := λ s,
  match globals s !! n with
  | Some v => (Ok v, s)
  | None => (Raise (NameError n), s)
  end.

(** [import m]: binds the name [m] to the module object. *)
Definition import_ (m : string) : M unit := assign m (VModule m).

(** An attribute of the module [m] is reached only through the module object
    itself. *)
Definition expect_module (m : string) (v : value) : M unit :=
  match v with
  | VModule m' => if decide (m' = m) then mret tt else raise (AttributeError m)
  | _ => raise (AttributeError m)
  end.

(** [list.insert(i, x)]: a negative index counts from the end, and an index
    out of range is clamped to the nearest end. *)
Definition list_insert {A} (i : Z) (x : A) (l : list A) : list A :=
  let n := Z.of_nat (List.length l) in
  let w := if i <? 0 then Z.max 0 (i + n) else Z.min i n in
  take (Z.to_nat w) l ++ x :: drop (Z.to_nat w) l.

(** An update of the list object [sys.path] in place. *)
Definition modify_sys_path (f : list string → list string) : M unit := λ s,
  (Ok tt, MkInterp (globals s) (f (sys_path s)) (objects s) (abspath s)).

(** The library's answer for [os.path.abspath(p)] in the current process. *)
Definition call_abspath (p : string) : M string := λ s, (Ok (abspath s p), s).

(** [sys.path.insert(i, x)], the callee being evaluated before [x]. *)
Definition sys_path_insert (i : Z) (x : M string) : M unit :=
  sys ← name "sys";
  expect_module "sys" sys;;
  p ← x;
  modify_sys_path (list_insert i p).

(** [os.path.abspath(p)]. *)
Definition os_path_abspath (p : string) : M string :=
  os ← name "os";
  expect_module "os" os;;
  call_abspath p.

(** A dictionary display [{k1: v1, ..., kn: vn}]: the items are stored from
    left to right, a later one replacing an earlier one with the same key. *)
Definition dict_display (items : list (string * value)) : gmap string value :=
  foldl (λ d kv, <[kv.1 := kv.2]> d) ∅ items.

End Py.

Import Py.

Notation "n ::= v" := (assign n v) (at level 60, no associativity).

(** ** The module [docs/conf.py] *)

Module Conf.

(** [def f(...)] at module level binds [f] to the function object; its body is
    the definition of the same name below. *)
Definition def (f : string) : M unit := assign f (VFunction f).

(** The top-level statements of [docs/conf.py], in source order. *)
Definition conf_py : M unit :=
  (* Path setup *)
  import_ "os";;
  import_ "sys";;
  sys_path_insert 0 (os_path_abspath "../src");;
  (* Project information *)
  "project" ::= VStr "Gaussian Extractor";;
  "copyright" ::= VStr "2025, Le Nhan Pham";;
  "author" ::= VStr "Le Nhan Pham";;
  "release" ::= VStr "0.5.0";;
  "version" ::= VStr "0.5.0";;
  (* General configuration *)
  "master_doc" ::= VStr "index";;
  "extensions" ::= VList [
    VStr "sphinx.ext.autodoc";
    VStr "sphinx.ext.doctest";
    VStr "sphinx.ext.intersphinx";
    VStr "sphinx.ext.todo";
    VStr "sphinx.ext.coverage";
    VStr "sphinx.ext.mathjax";
    VStr "sphinx.ext.ifconfig";
    VStr "sphinx.ext.viewcode";
    VStr "sphinx.ext.githubpages";
    VStr "sphinx.ext.napoleon";
    VStr "breathe";
    VStr "exhale"
  ];;
  doxygenStripFromPath ← os_path_abspath "../src";
  "exhale_args" ::= VDict (dict_display [
    ("containmentFolder", VStr "./api");
    ("rootFileName", VStr "api.rst");
    ("rootFileTitle", VStr "Gaussian Extractor API");
    ("doxygenStripFromPath", VStr doxygenStripFromPath);
    ("exhaleExecutesDoxygen", VBool true);
    ("exhaleDoxygenStdin", VStr "
        PROJECT_NAME = GaussianExtractor
        INPUT = ../src
        FILE_PATTERNS = *.cpp *.hpp *.h *.cxx *.cc
        RECURSIVE = YES
        GENERATE_XML = YES
        XML_OUTPUT = xml
        EXTRACT_ALL = YES
        EXTRACT_PRIVATE = YES
        EXTRACT_STATIC = YES
        EXTRACT_LOCAL_CLASSES = YES
        EXTRACT_LOCAL_METHODS = YES
        EXTRACT_ANON_NSPACES = YES
        ENABLE_PREPROCESSING = YES
        VERBATIM_HEADERS = NO
        XML_PROGRAMLISTING = NO
        MACRO_EXPANSION = YES
        EXPAND_ONLY_PREDEF = YES
        INLINE_SOURCES = YES
        SHOW_FILES = YES
        EXCLUDE_PATTERNS = */test/* */tests/* */example/* */examples/*
        HAVE_DOT = YES
        UML_LOOK = YES
        CALL_GRAPH = YES
        CALLER_GRAPH = YES
        INCLUDE_GRAPH = YES
        INCLUDED_BY_GRAPH = YES
        COLLABORATION_GRAPH = YES
        CLASS_DIAGRAMS = YES
        CLASS_GRAPH = YES
        GRAPHICAL_HIERARCHY = YES
        DIRECTORY_GRAPH = YES
        DOT_IMAGE_FORMAT = svg
        INTERACTIVE_SVG = YES
        DOT_TRANSPARENT = YES
        DOT_MULTI_TARGETS = YES
        QUIET = YES
        EXCLUDE_PATTERNS = */src/*.cpp
    ");
    ("createTreeView", VBool true);
    ("afterTitleDescription",
       VStr "Comprehensive API documentation for the Gaussian Extractor.");
    ("verboseBuild", VBool false)
  ]);;
  "breathe_projects" ::= VDict (dict_display [
    ("GaussianExtractor", VStr "./xml/")
  ]);;
  "breathe_default_project" ::= VStr "GaussianExtractor";;
  "templates_path" ::= VList [VStr "_templates"];;
  "exclude_patterns" ::= VList [VStr "_build"; VStr "Thumbs.db"; VStr ".DS_Store"];;
  (* Options for HTML output *)
  "html_theme" ::= VStr "furo";;
  "html_static_path" ::= VList [VStr "_static"];;
  "html_css_files" ::= VList [];;
  "html_js_files" ::= VList [];;
  (* Options for LaTeX output *)
  "latex_elements" ::= VDict (dict_display [
    ("papersize", VStr "a4paper");
    ("pointsize", VStr "11pt");
    ("preamble", VStr "
        \usepackage{amsmath}
        \usepackage{amssymb}
        \usepackage{physics}
        \usepackage{siunitx}
    ");
    ("figure_align", VStr "htbp")
  ]);;
  master_doc ← name "master_doc";
  "latex_documents" ::= VList [
    VTuple [master_doc; VStr "GaussianExtractor.tex";
            VStr "Gaussian Extractor Documentation";
            VStr "Le Nhan Pham"; VStr "manual"]
  ];;
  (* Options for manual page output *)
  master_doc ← name "master_doc";
  author ← name "author";
  "man_pages" ::= VList [
    VTuple [master_doc; VStr "gaussianextractor";
            VStr "Gaussian Extractor Documentation";
            VList [author]; VInt 1]
  ];;
  (* Options for Texinfo output *)
  master_doc ← name "master_doc";
  author ← name "author";
  "texinfo_documents" ::= VList [
    VTuple [master_doc; VStr "GaussianExtractor";
            VStr "Gaussian Extractor Documentation";
            author; VStr "GaussianExtractor";
            VStr "High-performance Gaussian log file processor.";
            VStr "Miscellaneous"]
  ];;
  (* Extension configuration *)
  "intersphinx_mapping" ::= VDict (dict_display [
    ("python", VTuple [VStr "https://docs.python.org/3/"; VNone])
  ]);;
  "todo_include_todos" ::= VBool true;;
  "autoclass_content" ::= VStr "both";;
  "autodoc_member_order" ::= VStr "bysource";;
  "autodoc_default_flags" ::=
    VList [VStr "members"; VStr "undoc-members"; VStr "show-inheritance"];;
  "napoleon_google_docstring" ::= VBool true;;
  "napoleon_numpy_docstring" ::= VBool true;;
  "napoleon_include_init_with_doc" ::= VBool false;;
  "napoleon_include_private_with_doc" ::= VBool false;;
  "napoleon_include_special_with_doc" ::= VBool true;;
  "napoleon_use_admonition_for_examples" ::= VBool false;;
  "napoleon_use_admonition_for_notes" ::= VBool false;;
  "napoleon_use_admonition_for_references" ::= VBool false;;
  "napoleon_use_ivar" ::= VBool false;;
  "napoleon_use_param" ::= VBool true;;
  "napoleon_use_rtype" ::= VBool true;;
  "pygments_style" ::= VStr "sphinx";;
  "keep_warnings" ::= VBool false;;
  (* GitHub integration *)
  "html_context" ::= VDict (dict_display [
    ("display_github", VBool true);
    ("github_user", VStr "lenhanpham");
    ("github_repo", VStr "gaussian-extractor");
    ("github_version", VStr "main");
    ("conf_py_path", VStr "/docs/")
  ]);;
  (* PDF output configuration *)
  master_doc ← name "master_doc";
  author ← name "author";
  "pdf_documents" ::= VList [
    VTuple [master_doc; VStr "GaussianExtractor";
            VStr "Gaussian Extractor Documentation";
            author; VStr "manual"]
  ];;
  (* Linkcheck configuration *)
  "linkcheck_ignore" ::= VList [
    VStr "https://github.com/lenhanpham/gaussian-extractor/.*";
    VStr "https://docs.python.org/.*";
    VStr "https://en.cppreference.com/.*"
  ];;
  (* Custom build commands *)
  def "setup".

(** [setup(app)]: the hook Sphinx calls with its application object. *)
Definition setup (app : value) : M value :=
  mret (VDict (dict_display [
    ("version", VStr "0.1");
    ("parallel_read_safe", VBool true);
    ("parallel_write_safe", VBool true)
  ])).

End Conf.

Import Conf.

(** ** The text handed to Doxygen *)

Module Doxygen.

(** The configuration text is read line by line; a line [KEY = VALUE] assigns
    [VALUE] to [KEY], and a later assignment to a key replaces an earlier
    one.  The text of [conf.py] uses no other form of line. *)
Fixpoint lines (s : string) : list string :=
  match s with
  | "" => [""]
  | String a s' =>
      if decide (a = "010"%char) then "" :: lines s'
      else match lines s' with
           | l :: ls => String a l :: ls
           | [] => [String a ""]
           end
  end.

Fixpoint lstrip (s : string) : string :=
  match s with
  | "" => ""
  | String a s' => if Ascii.is_space a then lstrip s' else s
  end.

Definition strip (s : string) : string :=
  String.rev (lstrip (String.rev (lstrip s))).

(** The text before the first [=] of a line and the text after it. *)
Fixpoint split_eq (s : string) : option (string * string) :=
  match s with
  | "" => None
  | String a s' =>
      if decide (a = "="%char) then Some ("", s')
      else '(k, v) ← split_eq s'; Some (String a k, v)
  end.

Definition assignment (l : string) : option (string * string) :=
  '(k, v) ← split_eq l; Some (strip k, strip v).

(** The assignments of a text, in the order of its lines. *)
Definition assignments (s : string) : list (string * string) :=
  omap assignment (lines s).

(** Last assignment wins. *)
Definition settle (kvs : list (string * string)) : gmap string string :=
  foldl (λ m kv, <[kv.1 := kv.2]> m) ∅ kvs.

Definition effective (s : string) : gmap string string :=
  settle (assignments s).

(** The assignments a text makes to the key [k]. *)
Definition assigned (k : string) (s : string) : list string :=
  (filter (λ kv, kv.1 = k) (assignments s)).*2.

End Doxygen.

(** ** Regular expressions as the link checker compiles them *)

Module Re.

(** The link checker hands each string of [linkcheck_ignore] to Python's
    [re.compile].  [compile] follows that parser over ASCII patterns built
    from literals, [.], [^], [$], the repeats [*] [+] [?] and their lazy
    forms, [|], capturing groups, character sets and one-character escapes.
    Each way the parser rejects such a pattern is an [error]; a pattern that
    leaves the fragment (counted repeats, group extensions, possessive
    repeats, numeric or alphabetic escapes outside the classes) is
    [Unsupported], never [Valid]. *)
Inductive error : Type :=
  | NothingToRepeat
  | MultipleRepeat
  | UnbalancedParenthesis
  | MissingParenthesis
  | BadEscape
  | UnterminatedSet
  | BadCharacterRange.

Inductive verdict : Type :=
  | Valid
  | Invalid (e : error)
  | Unsupported.

(** What the parser has read last.  In a set, [lo] is the code of the item
    just read when that item is a single character. *)
Inductive mode : Type :=
  | Empty
  | At
  | Item
  | Greedy
  | Lazy
  | Escape
  | Group
  | SetOpen
  | SetStart
  | SetItem (lo : option ascii)
  | SetDash (lo : option ascii)
  | SetMore
  | SetEscape (range : option (option ascii)).

Definition code (c : ascii) : N := N_of_ascii c.

Definition is_alnum (c : ascii) : bool :=
  let n := code c in
  ((48 <=? n) && (n <=? 57) || (65 <=? n) && (n <=? 90) || (97 <=? n) && (n <=? 122))%N.

Definition is_category (c : ascii) : bool :=
  bool_decide (c ∈ list_ascii_of_string "dDsSwW").

Definition is_position (c : ascii) : bool :=
  bool_decide (c ∈ list_ascii_of_string "AbBZ").

Definition is_control (c : ascii) : bool :=
  bool_decide (c ∈ list_ascii_of_string "afnrtv").

(** One character read outside a set and outside an escape; [m] is one of
    [Empty], [At], [Item], [Greedy], [Lazy]. *)
Definition plain (m : mode) (depth : nat) (c : ascii) : mode * nat + verdict :=
  match c with
  | "\" => inl (Escape, depth)
  | "[" => inl (SetOpen, depth)
  | "(" => inl (Group, S depth)
  | ")" =>
      match depth with
      | O => inr (Invalid UnbalancedParenthesis)
      | S d => inl (Item, d)
      end
  | "|" => inl (Empty, depth)
  | "^" | "$" => inl (At, depth)
  | "{" => inr Unsupported
  | "*" =>
      match m with
      | Item => inl (Greedy, depth)
      | Greedy | Lazy => inr (Invalid MultipleRepeat)
      | _ => inr (Invalid NothingToRepeat)
      end
  | "+" =>
      match m with
      | Item => inl (Greedy, depth)
      | Greedy => inr Unsupported
      | Lazy => inr (Invalid MultipleRepeat)
      | _ => inr (Invalid NothingToRepeat)
      end
  | "?" =>
      match m with
      | Item => inl (Greedy, depth)
      | Greedy => inl (Lazy, depth)
      | Lazy => inr (Invalid MultipleRepeat)
      | _ => inr (Invalid NothingToRepeat)
      end
  | _ => inl (Item, depth)
  end%char.

(** The end of a range [lo-hi] inside a set. *)
Definition range (lo hi : option ascii) (depth : nat) : mode * nat + verdict :=
  match lo, hi with
  | Some l, Some h =>
      if (code h <? code l)%N then inr (Invalid BadCharacterRange)
      else inl (SetMore, depth)
  | _, _ => inr (Invalid BadCharacterRange)
  end.

(** One character read at an item position of a set that is not empty. *)
Definition member (depth : nat) (c : ascii) : mode * nat + verdict :=
  match c with
  | "]" => inl (Item, depth)
  | "\" => inl (SetEscape None, depth)
  | _ => inl (SetItem (Some c), depth)
  end%char.

Definition step (m : mode) (depth : nat) (c : ascii) : mode * nat + verdict :=
  if (128 <=? code c)%N then inr Unsupported else
  match m with
  | Empty | At | Item | Greedy | Lazy => plain m depth c
  | Group =>
      if decide (c = "?"%char) then inr Unsupported else plain Empty depth c
  | Escape =>
      if is_category c || is_control c then inl (Item, depth)
      else if is_position c then inl (At, depth)
      else if is_alnum c then inr Unsupported
      else inl (Item, depth)
  | SetOpen =>
      if decide (c = "^"%char) then inl (SetStart, depth)
      else if decide (c = "\"%char) then inl (SetEscape None, depth)
      else inl (SetItem (Some c), depth)
  | SetStart =>
      if decide (c = "\"%char) then inl (SetEscape None, depth)
      else inl (SetItem (Some c), depth)
  | SetItem lo =>
      if decide (c = "-"%char) then inl (SetDash lo, depth)
      else member depth c
  | SetDash lo =>
      match c with
      | "]" => inl (Item, depth)
      | "\" => inl (SetEscape (Some lo), depth)
      | _ => range lo (Some c) depth
      end%char
  | SetMore => member depth c
  | SetEscape r =>
      if is_category c then
        match r with
        | None => inl (SetItem None, depth)
        | Some lo => range lo None depth
        end
      else if is_alnum c then inr Unsupported
      else
        match r with
        | None => inl (SetItem (Some c), depth)
        | Some lo => range lo (Some c) depth
        end
  end.

(** The end of the pattern. *)
Definition finish (m : mode) (depth : nat) : verdict :=
  match m with
  | Empty | At | Item | Greedy | Lazy =>
      match depth with
      | O => Valid
      | S _ => Invalid MissingParenthesis
      end
  | Group => Invalid MissingParenthesis
  | Escape | SetEscape _ => Invalid BadEscape
  | SetOpen | SetStart | SetItem _ | SetDash _ | SetMore => Invalid UnterminatedSet
  end.

Fixpoint scan (m : mode) (depth : nat) (cs : list ascii) : verdict :=
  match cs with
  | [] => finish m depth
  | c :: cs' =>
      match step m depth c with
      | inl (m', depth') => scan m' depth' cs'
      | inr v => v
      end
  end.

Definition compile (pattern : string) : verdict :=
  scan Empty 0 (list_ascii_of_string pattern).

(** The ASCII characters that stand for themselves outside a set. *)
Definition literal (c : ascii) : bool :=
  (code c <? 128)%N && bool_decide (c ∉ list_ascii_of_string "\[()|^${*+?").

End Re.

(** ** Path patterns as Sphinx matches them *)

Module Glob.

(** Sphinx matches a path against an entry of [exclude_patterns] by
    translating the entry to a regular expression and compiling that.
    [translate] is the translation: [**] crosses directories, [*] and [?] do
    not, [[...]] is a set when it is closed and a literal bracket otherwise,
    and any other character stands for itself. *)
Definition special : list ascii :=
  list_ascii_of_string "()[]{}?*+-|^$\.&~# "
    ++ ["009"; "010"; "011"; "012"; "013"]%char.

Definition escape (c : ascii) : list ascii :=
  if bool_decide (c ∈ special) then ["\"; c]%char else [c].

(** The index, from position [j] on, of the first closing bracket. *)
Fixpoint closing (j : nat) (cs : list ascii) : option nat :=
  match j, cs with
  | S j', _ :: cs' => S <$> closing j' cs'
  | S _, [] => None
  | O, [] => None
  | O, c :: cs' => if decide (c = "]"%char) then Some O else S <$> closing O cs'
  end.

(** For the text after an opening bracket, where its set ends. *)
Definition set_end (cs : list ascii) : option nat :=
  let j := match cs with "!"%char :: _ => 1 | _ => 0 end%nat in
  let j := match drop j cs with "]"%char :: _ => S j | _ => j end in
  closing j cs.

(** The body of a set, as it is written into the regular expression. *)
Definition stuff (cs : list ascii) : list ascii :=
  let doubled := flat_map (λ c, if decide (c = "\"%char) then ["\"; "\"]%char else [c]) cs in
  match doubled with
  | "!"%char :: tl => ["^"; "/"]%char ++ tl
  | "^"%char :: _ => "\"%char :: doubled
  | _ => doubled
  end.

(** [skip] counts the characters already consumed as part of a set. *)
Fixpoint translate_from (skip : nat) (cs : list ascii) : list ascii :=
  match cs with
  | [] => ["$"%char]
  | c :: rest =>
      match skip with
      | S k => translate_from k rest
      | O =>
          if decide (c = "*"%char) then
            match rest with
            | "*"%char :: _ => list_ascii_of_string ".*" ++ translate_from 1 rest
            | _ => list_ascii_of_string "[^/]*" ++ translate_from 0 rest
            end
          else if decide (c = "?"%char) then
            list_ascii_of_string "[^/]" ++ translate_from 0 rest
          else if decide (c = "["%char) then
            match set_end rest with
            | None => list_ascii_of_string "\[" ++ translate_from 0 rest
            | Some j =>
                "["%char :: stuff (take j rest) ++ "]"%char :: translate_from (S j) rest
            end
          else escape c ++ translate_from 0 rest
      end
  end.

Definition translate (pattern : string) : string :=
  string_of_list_ascii (translate_from 0 (list_ascii_of_string pattern)).

(** A path pattern is well formed when its translation compiles. *)
Definition well_formed (pattern : string) : Prop :=
  Re.compile (translate pattern) = Re.Valid.

End Glob.

(** ** Namespaces, and an interpreter to run the module in *)

(** The names [docs/conf.py] binds at top level. *)
Definition conf_names : gset string :=
  {[ "os"; "sys"; "project"; "copyright"; "author"; "release"; "version";
     "master_doc"; "extensions"; "exhale_args"; "breathe_projects";
     "breathe_default_project"; "templates_path"; "exclude_patterns";
     "html_theme"; "html_static_path"; "html_css_files"; "html_js_files";
     "latex_elements"; "latex_documents"; "man_pages"; "texinfo_documents";
     "intersphinx_mapping"; "todo_include_todos"; "autoclass_content";
     "autodoc_member_order"; "autodoc_default_flags";
     "napoleon_google_docstring"; "napoleon_numpy_docstring";
     "napoleon_include_init_with_doc"; "napoleon_include_private_with_doc";
     "napoleon_include_special_with_doc";
     "napoleon_use_admonition_for_examples";
     "napoleon_use_admonition_for_notes";
     "napoleon_use_admonition_for_references"; "napoleon_use_ivar";
     "napoleon_use_param"; "napoleon_use_rtype"; "pygments_style";
     "keep_warnings"; "html_context"; "pdf_documents"; "linkcheck_ignore";
     "setup" ]}.

(** The bindings the module makes when it starts from an empty namespace and
    [os.path.abspath('../src')] is [src]. *)
Definition conf_globals (src : string) : gmap string value :=
  globals (run conf_py (MkInterp ∅ [] ∅ (λ _, src))).2.

(** The state [s] with the bindings [g0] added underneath its namespace. *)
Definition extend (g0 : gmap string value) (s : Interp) : Interp :=
  MkInterp (globals s ∪ g0) (sys_path s) (objects s) (abspath s).

(** A program is local when a run that succeeds still succeeds, with the same
    result and the same effect, in a namespace that has more names. *)
Class Local {A} (m : M A) : Prop :=
  local : ∀ s g0 a s', run m s = (Ok a, s') → run m (extend g0 s) = (Ok a, extend g0 s').

(** An interpreter started in [/repo/docs], with one entry on [sys.path], an
    empty namespace and no live object. *)
Definition docs_interp : Interp :=
  MkInterp ∅ ["/usr/lib/python3"] ∅
    (λ p, if decide (p = "../src") then "/repo/src" else "/repo/docs/" +:+ p).

(** ** Locality of the monad's operations *)

Section locality.
Context {A B : Type}.

Lemma ret_local (a : A) : Local (mret a).
Proof. intros s g0 a' s' [= <- <-]. reflexivity. Qed.

Lemma raise_local (e : exn) : Local (raise (A := A) e).
Proof. intros s g0 a s' [=]. Qed.

Lemma bind_local (m : M A) (f : A → M B) :
  Local m → (∀ a, Local (f a)) → Local (m ≫= f).
Proof.
  intros Hm Hf s g0 b s'. unfold run, mbind, M_bind.
  destruct (m s) as [[a|e] s1] eqn:E; [|intros [=]].
  intros Hrun. pose proof (Hm s g0 a s1 E) as E'. unfold run in E'.
  rewrite E'. exact (Hf a s1 g0 b s' Hrun).
Qed.
End locality.

Lemma assign_local n v : Local (assign n v).
Proof.
  intros s g0 [] s' [= <-]. unfold run, assign, extend; cbn [globals sys_path objects abspath].
  by rewrite insert_union_l.
Qed.

Lemma name_local n : Local (name n).
Proof.
  intros s g0 v s'. unfold run, name.
  destruct (globals s !! n) as [w|] eqn:E; intros [= <- <-]; cbn [extend globals].
  by rewrite (lookup_union_Some_l _ _ _ _ E).
Qed.

Lemma expect_module_local m v : Local (expect_module m v).
Proof.
  destruct v; cbn [expect_module]; try apply raise_local.
  case_decide; [apply ret_local | apply raise_local].
Qed.

Lemma modify_sys_path_local f : Local (modify_sys_path f).
Proof. intros s g0 [] s' [= <-]. reflexivity. Qed.

Lemma call_abspath_local p : Local (call_abspath p).
Proof. intros s g0 a s' [= <- <-]. reflexivity. Qed.

(** Locality of a program follows its syntax. *)
Ltac solve_local :=
  lazymatch goal with
  | |- Local (mbind _ _) => apply bind_local; [solve_local | intros ?; solve_local]
  | |- Local (mret _) => apply ret_local
  | |- Local (assign _ _) => apply assign_local
  | |- Local (name _) => apply name_local
  | |- Local (import_ _) => apply assign_local
  | |- Local (def _) => apply assign_local
  | |- Local (expect_module _ _) => apply expect_module_local
  | |- Local (modify_sys_path _) => apply modify_sys_path_local
  | |- Local (call_abspath _) => apply call_abspath_local
  | |- Local (os_path_abspath _) => unfold os_path_abspath; solve_local
  | |- Local (sys_path_insert _ _) => unfold sys_path_insert; solve_local
  end.

Lemma conf_py_local : Local conf_py.
Proof. unfold conf_py. solve_local. Qed.

(** ** Running the module *)

Lemma list_insert_0 {A} (x : A) (l : list A) : list_insert 0 x l = x :: l.
Proof.
  unfold list_insert. simpl.
  replace (Z.to_nat (0 `min` Z.of_nat (List.length l))) with O by lia.
  by rewrite take_0, drop_0.
Qed.

Example list_insert_clamps :
  list_insert (-1) 9 [1; 2; 3] = [1; 2; 9; 3] ∧
  list_insert 10 9 [1; 2; 3] = [1; 2; 3; 9] ∧
  list_insert (-10) 9 [1; 2; 3] = [9; 1; 2; 3].
Proof. repeat split. Qed.

Lemma conf_py_fresh p o f :
  run conf_py (MkInterp ∅ p o f)
  = (Ok tt, MkInterp (conf_globals (f "../src")) (list_insert 0 (f "../src") p) o f).
Proof. vm_compute. reflexivity. Qed.

(** In every state the module runs to its end: it adds its bindings on top of
    the namespace and puts one entry in front of [sys.path]. *)
Lemma conf_py_run s :
  run conf_py s
  = (Ok tt, MkInterp (conf_globals (abspath s "../src") ∪ globals s)
                     (abspath s "../src" :: sys_path s) (objects s) (abspath s)).
Proof.
  destruct s as [g p o f]; cbn [globals sys_path objects abspath].
  rewrite <- (list_insert_0 (f "../src") p).
  rewrite <- (left_id_L ∅ (∪) g) at 1.
  exact (conf_py_local _ g _ _ (conf_py_fresh p o f)).
Qed.

Lemma conf_globals_dom src : dom (conf_globals src) = conf_names.
Proof. apply (bool_decide_unpack _). by vm_compute. Qed.

Lemma conf_py_post s :
  ∃ s', run conf_py s = (Ok tt, s') ∧
    ∀ n v, conf_globals (abspath s "../src") !! n = Some v → globals s' !! n = Some v.
Proof.
  eexists; split; [apply conf_py_run|].
  intros n v E; cbn [globals]. apply lookup_union_Some_l, E.
Qed.

(** ** The text of a configuration: the last assignment wins *)

Lemma settle_from_notin (m : gmap string string) kvs k :
  k ∉ kvs.*1 → foldl (λ m kv, <[kv.1 := kv.2]> m) m kvs !! k = m !! k.
Proof.
  revert m. induction kvs as [|[k' v'] kvs IH]; intros m Hk; [done|].
  rewrite fmap_cons, not_elem_of_cons in Hk. destruct Hk as [Hne Hk].
  cbn [foldl]. rewrite IH by done. by apply lookup_insert_ne.
Qed.

Lemma settle_last_wins before after k v :
  k ∉ after.*1 → Doxygen.settle (before ++ (k, v) :: after) !! k = Some v.
Proof.
  intros Hk. unfold Doxygen.settle. rewrite foldl_app. cbn [foldl].
  rewrite settle_from_notin by done. apply lookup_insert_eq.
Qed.

(** ** Patterns of literal characters compile *)

Lemma step_literal c depth :
  Re.literal c = true → Re.step Re.Item depth c = inl (Re.Item, depth).
Proof.
  destruct c as [[] [] [] [] [] [] [] []]; vm_compute; intros H;
    solve [reflexivity | discriminate H].
Qed.

Lemma scan_literal cs :
  Forall (λ c, Re.literal c = true) cs → Re.scan Re.Item 0 cs = Re.Valid.
Proof.
  induction 1 as [|c cs Hc _ IH]; [done|].
  cbn [Re.scan]. by rewrite (step_literal c 0 Hc).
Qed.

(** What the parser rejects, construct by construct. *)
Example compile_rejects :
  Re.compile <$> ["*a"; "a**"; "a)"; "(a"; "a\"; "[a"; "[z-a]"]
  = Re.Invalid <$> [Re.NothingToRepeat; Re.MultipleRepeat; Re.UnbalancedParenthesis;
                    Re.MissingParenthesis; Re.BadEscape; Re.UnterminatedSet;
                    Re.BadCharacterRange].
Proof. reflexivity. Qed.

Example translate_glob :
  Glob.translate <$> ["**/x*.py"; "a[!b]c"; "a[bc"] = [".*/x[^/]*\.py$"; "a[^/b]c$"; "a\[bc$"].
Proof. reflexivity. Qed.

(** A name that is read before it is bound raises [NameError]. *)
Lemma name_unbound n s :
  globals s !! n = None → run (name n) s = (Raise (NameError n), s).
Proof. intros E. unfold run, name. by rewrite E. Qed.

(** ** The properties of the specification *)

(** Looking a name of the module up after the run: the answer is computed
    from the bindings of [conf_globals]. *)
Ltac conf_lookup Hget := apply Hget; vm_compute; reflexivity.

(** C1, as the specification states it, fails: in an interpreter whose
    [sys.path] is [['/usr/lib/python3']], executing the module leaves
    [['/repo/src', '/usr/lib/python3']] there. *)
Lemma C1_sys_path_changed :
  sys_path docs_interp = ["/usr/lib/python3"] ∧
  sys_path (run conf_py docs_interp).2 = ["/repo/src"; "/usr/lib/python3"] ∧
  sys_path (run conf_py docs_interp).2 ≠ sys_path docs_interp.
Proof. split; [|split]; [reflexivity | by vm_compute | by vm_compute]. Qed.

(** C1 (amended): in every interpreter state the module runs to its end
    without an exception; it puts [os.path.abspath('../src')] in front of
    [sys.path] and keeps the earlier entries; it leaves the live objects and
    the library alone; and in the namespace it binds exactly its own
    top-level names, to values that depend on the state only through
    [os.path.abspath('../src')], every other name keeping its binding. *)
Theorem C1_module_effect (s : Interp) :
  ∃ s', run conf_py s = (Ok tt, s') ∧
    sys_path s' = abspath s "../src" :: sys_path s ∧
    objects s' = objects s ∧
    abspath s' = abspath s ∧
    globals s' = conf_globals (abspath s "../src") ∪ globals s ∧
    dom (conf_globals (abspath s "../src")) = conf_names ∧
    (∀ n, n ∉ conf_names → globals s' !! n = globals s !! n).
Proof.
  eexists; split; [apply conf_py_run|]; cbn [globals sys_path objects abspath].
  do 4 (split; [reflexivity|]). split; [apply conf_globals_dom|].
  intros n Hn. apply lookup_union_r, not_elem_of_dom.
  by rewrite conf_globals_dom.
Qed.

(** C2: [setup(app)] returns, for every [app] and in every state, the same
    dictionary [{'version': '0.1', 'parallel_read_safe': True,
    'parallel_write_safe': True}], and leaves the state, [app] included, as it
    was. *)
Theorem C2_setup_static :
  ∃ d, (∀ app s, run (setup app) s = (Ok (VDict d), s)) ∧
    dom d = {[ "version"; "parallel_read_safe"; "parallel_write_safe" ]} ∧
    d !! "version" = Some (VStr "0.1") ∧
    d !! "parallel_read_safe" = Some (VBool true) ∧
    d !! "parallel_write_safe" = Some (VBool true).
Proof.
  eexists; split; [intros app s; reflexivity|].
  split; [apply (bool_decide_unpack _); by vm_compute|].
  repeat split; reflexivity.
Qed.

(** C3: for every [app], the dictionary [setup(app)] returns maps
    ['parallel_read_safe'] and ['parallel_write_safe'] to [True]. *)
Theorem C3_parallel_safe (app : value) (s : Interp) :
  ∃ d, (run (setup app) s).1 = Ok (VDict d) ∧
    d !! "parallel_read_safe" = Some (VBool true) ∧
    d !! "parallel_write_safe" = Some (VBool true).
Proof. eexists; split; [reflexivity|]. split; reflexivity. Qed.

(** C4: the three strings of [linkcheck_ignore] compile as regular
    expressions, and the three strings of [exclude_patterns] are well-formed
    path patterns. *)
Theorem C4_patterns_well_formed (s : Interp) :
  ∃ s' r1 r2 r3 p1 p2 p3, run conf_py s = (Ok tt, s') ∧
    globals s' !! "linkcheck_ignore" = Some (VList [VStr r1; VStr r2; VStr r3]) ∧
    Re.compile r1 = Re.Valid ∧ Re.compile r2 = Re.Valid ∧ Re.compile r3 = Re.Valid ∧
    globals s' !! "exclude_patterns" = Some (VList [VStr p1; VStr p2; VStr p3]) ∧
    Glob.well_formed p1 ∧ Glob.well_formed p2 ∧ Glob.well_formed p3.
Proof.
  destruct (conf_py_post s) as (s' & Hrun & Hget).
  exists s'; do 6 eexists; split; [exact Hrun|].
  split; [conf_lookup Hget|].
  do 3 (split; [reflexivity|]).
  split; [conf_lookup Hget|].
  repeat split; reflexivity.
Qed.

(** C5: [master_doc] is ['index'], the module reads it without a [NameError]
    (it is bound by then, whatever the namespace held at the start), and the
    single tuple of each of [latex_documents], [man_pages] and
    [texinfo_documents] starts with it. *)
Theorem C5_master_document (s : Interp) :
  ∃ s' latex man texinfo, run conf_py s = (Ok tt, s') ∧
    globals s' !! "master_doc" = Some (VStr "index") ∧
    globals s' !! "latex_documents" = Some (VList [VTuple (VStr "index" :: latex)]) ∧
    globals s' !! "man_pages" = Some (VList [VTuple (VStr "index" :: man)]) ∧
    globals s' !! "texinfo_documents" = Some (VList [VTuple (VStr "index" :: texinfo)]).
Proof.
  destruct (conf_py_post s) as (s' & Hrun & Hget).
  exists s'; do 3 eexists; split; [exact Hrun|].
  repeat split; conf_lookup Hget.
Qed.

(** C6: [intersphinx_mapping] is a dictionary whose only key is ['python'],
    mapped to the pair [('https://docs.python.org/3/', None)]. *)
Theorem C6_intersphinx_mapping (s : Interp) :
  ∃ s' d, run conf_py s = (Ok tt, s') ∧
    globals s' !! "intersphinx_mapping" = Some (VDict d) ∧
    dom d = {[ "python" ]} ∧
    d !! "python" = Some (VTuple [VStr "https://docs.python.org/3/"; VNone]).
Proof.
  destruct (conf_py_post s) as (s' & Hrun & Hget).
  exists s'; eexists; split; [exact Hrun|].
  split; [conf_lookup Hget|].
  split; [apply (bool_decide_unpack _); by vm_compute | reflexivity].
Qed.

(** C7: [html_context] declares the five GitHub entries and [html_theme] is
    ['furo']. *)
Theorem C7_github_context_and_theme (s : Interp) :
  ∃ s' d, run conf_py s = (Ok tt, s') ∧
    globals s' !! "html_context" = Some (VDict d) ∧
    d !! "display_github" = Some (VBool true) ∧
    d !! "github_user" = Some (VStr "lenhanpham") ∧
    d !! "github_repo" = Some (VStr "gaussian-extractor") ∧
    d !! "github_version" = Some (VStr "main") ∧
    d !! "conf_py_path" = Some (VStr "/docs/") ∧
    globals s' !! "html_theme" = Some (VStr "furo").
Proof.
  destruct (conf_py_post s) as (s' & Hrun & Hget).
  exists s'; eexists; split; [exact Hrun|].
  split; [conf_lookup Hget|].
  do 5 (split; [reflexivity|]). conf_lookup Hget.
Qed.

(** C8: the text [exhale_args['exhaleDoxygenStdin']] assigns
    [EXCLUDE_PATTERNS] on two lines, first the test and example directories and
    last [*/src/*.cpp]; with the last assignment winning, the value in effect
    is [*/src/*.cpp], and none of the test and example patterns is part of
    it. *)
Theorem C8_exclude_patterns_overridden (s : Interp) :
  ∃ s' d txt v, run conf_py s = (Ok tt, s') ∧
    globals s' !! "exhale_args" = Some (VDict d) ∧
    d !! "exhaleDoxygenStdin" = Some (VStr txt) ∧
    Doxygen.assigned "EXCLUDE_PATTERNS" txt
      = ["*/test/* */tests/* */example/* */examples/*"; "*/src/*.cpp"] ∧
    Doxygen.effective txt !! "EXCLUDE_PATTERNS" = Some v ∧
    v = "*/src/*.cpp" ∧
    Forall (λ p, p ∉ String.words v)
           ["*/test/*"; "*/tests/*"; "*/example/*"; "*/examples/*"].
Proof.
  destruct (conf_py_post s) as (s' & Hrun & Hget).
  exists s'; do 3 eexists; split; [exact Hrun|].
  split; [conf_lookup Hget|].
  split; [vm_compute; reflexivity|].
  split; [vm_compute; reflexivity|].
  split; [vm_compute; reflexivity|].
  split; [reflexivity|].
  apply (bool_decide_unpack _). by vm_compute.
Qed.

(** C9: the module binds [release] and [version] to ['0.5.0'], while the
    [setup] hook it defines returns a dictionary whose ['version'] is ['0.1'],
    another string. *)
Theorem C9_version_mismatch (s : Interp) (app : value) :
  ∃ s' d, run conf_py s = (Ok tt, s') ∧
    globals s' !! "release" = Some (VStr "0.5.0") ∧
    globals s' !! "version" = Some (VStr "0.5.0") ∧
    globals s' !! "setup" = Some (VFunction "setup") ∧
    run (setup app) s' = (Ok (VDict d), s') ∧
    d !! "version" = Some (VStr "0.1") ∧
    VStr "0.1" ≠ VStr "0.5.0".
Proof.
  destruct (conf_py_post s) as (s' & Hrun & Hget).
  exists s'; eexists; split; [exact Hrun|].
  do 3 (split; [conf_lookup Hget|]).
  split; [reflexivity|]. split; [reflexivity | discriminate].
Qed.

(** C10: [breathe_default_project] is ['GaussianExtractor'], which is a key
    of [breathe_projects], and that dictionary maps it to ['./xml/']. *)
Theorem C10_breathe_consistent (s : Interp) :
  ∃ s' k d, run conf_py s = (Ok tt, s') ∧
    globals s' !! "breathe_default_project" = Some (VStr k) ∧
    k = "GaussianExtractor" ∧
    globals s' !! "breathe_projects" = Some (VDict d) ∧
    k ∈ dom d ∧
    d !! k = Some (VStr "./xml/").
Proof.
  destruct (conf_py_post s) as (s' & Hrun & Hget).
  exists s'; do 2 eexists; split; [exact Hrun|].
  split; [conf_lookup Hget|]. split; [reflexivity|].
  split; [conf_lookup Hget|].
  split; [|reflexivity].
  apply elem_of_dom. eexists; reflexivity.
Qed.

(** ** Further properties of the module *)


(** X2: the directory Exhale strips from the paths it shows,
    [exhale_args['doxygenStripFromPath']], is the entry the module put at the
    front of [sys.path]: both are [os.path.abspath('../src')]. *)
Theorem X2_strip_path_is_sys_path_head (s : Interp) :
  ∃ s' d p, run conf_py s = (Ok tt, s') ∧
    sys_path s' !! 0%nat = Some p ∧
    globals s' !! "exhale_args" = Some (VDict d) ∧
    d !! "doxygenStripFromPath" = Some (VStr p) ∧
    p = abspath s "../src".
Proof.
  do 3 eexists; split; [apply conf_py_run|]; cbn [globals sys_path].
  split; [reflexivity|].
  split; [apply lookup_union_Some_l; vm_compute; reflexivity|].
  split; reflexivity.
Qed.

(** X3: one author throughout: [copyright] is the year followed by [author],
    the name written out in [latex_documents] is [author], and [man_pages],
    [texinfo_documents] and [pdf_documents] carry the value of [author]
    itself. *)
Theorem X3_one_author (s : Interp) :
  ∃ s' a l1 l2 l3 m1 m2 m3 t1 t2 t3 t4 p1 p2 p3, run conf_py s = (Ok tt, s') ∧
    globals s' !! "author" = Some (VStr a) ∧
    globals s' !! "copyright" = Some (VStr ("2025, " +:+ a)) ∧
    globals s' !! "latex_documents" = Some (VList [VTuple [l1; l2; l3; VStr a; VStr "manual"]]) ∧
    globals s' !! "man_pages" = Some (VList [VTuple [m1; m2; m3; VList [VStr a]; VInt 1]]) ∧
    globals s' !! "texinfo_documents" = Some (VList [VTuple [t1; t2; t3; VStr a; t4;
      VStr "High-performance Gaussian log file processor."; VStr "Miscellaneous"]]) ∧
    globals s' !! "pdf_documents" = Some (VList [VTuple [p1; p2; p3; VStr a; VStr "manual"]]).
Proof.
  destruct (conf_py_post s) as (s' & Hrun & Hget).
  exists s'; do 14 eexists; split; [exact Hrun|].
  repeat split; conf_lookup Hget.
Qed.

(** X4: [pdf_documents], like the other three descriptors, starts with
    [master_doc], and all four descriptors carry the same title, the project
    name followed by [' Documentation']. *)
Theorem X4_descriptor_titles (s : Interp) :
  ∃ s' m p title l2 l4 l5 m2 m4 m5 t2 t4 t5 t6 t7 p2 p4 p5,
    run conf_py s = (Ok tt, s') ∧
    globals s' !! "master_doc" = Some m ∧
    globals s' !! "project" = Some (VStr p) ∧
    title = VStr (p +:+ " Documentation") ∧
    globals s' !! "pdf_documents" = Some (VList [VTuple [m; p2; title; p4; p5]]) ∧
    globals s' !! "latex_documents" = Some (VList [VTuple [m; l2; title; l4; l5]]) ∧
    globals s' !! "man_pages" = Some (VList [VTuple [m; m2; title; m4; m5]]) ∧
    globals s' !! "texinfo_documents" = Some (VList [VTuple [m; t2; title; t4; t5; t6; t7]]).
Proof.
  destruct (conf_py_post s) as (s' & Hrun & Hget).
  exists s'; do 17 eexists; split; [exact Hrun|].
  split; [conf_lookup Hget|]. split; [conf_lookup Hget|].
  split; [reflexivity|].
  repeat split; conf_lookup Hget.
Qed.

(** X5: in the text handed to Doxygen every line that is not blank is an
    assignment, and [EXCLUDE_PATTERNS] is the only key assigned more than
    once: every other key has the value its one line gives it. *)
Theorem X5_doxygen_keys_unique (s : Interp) :
  ∃ s' d txt, run conf_py s = (Ok tt, s') ∧
    globals s' !! "exhale_args" = Some (VDict d) ∧
    d !! "exhaleDoxygenStdin" = Some (VStr txt) ∧
    List.length (filter (λ l, Doxygen.strip l ≠ "") (Doxygen.lines txt))
      = List.length (Doxygen.assignments txt) ∧
    NoDup (filter (λ k, k ≠ "EXCLUDE_PATTERNS") (Doxygen.assignments txt).*1) ∧
    Forall (λ kv, kv.1 ≠ "EXCLUDE_PATTERNS" → Doxygen.effective txt !! kv.1 = Some kv.2)
           (Doxygen.assignments txt).
Proof.
  destruct (conf_py_post s) as (s' & Hrun & Hget).
  exists s'; do 2 eexists; split; [exact Hrun|].
  split; [conf_lookup Hget|].
  split; [vm_compute; reflexivity|].
  split; [vm_compute; reflexivity|].
  split; apply (bool_decide_unpack _); by vm_compute.
Qed.

(** X6: Doxygen and Breathe agree: the text makes Doxygen read [../src], the
    directory whose absolute path is stripped, and write XML into [xml], and
    the Breathe project named by Doxygen's [PROJECT_NAME] is the default
    project and reads [./xml/]. *)
Theorem X6_doxygen_feeds_breathe (s : Interp) :
  ∃ s' d txt projects k xml, run conf_py s = (Ok tt, s') ∧
    globals s' !! "exhale_args" = Some (VDict d) ∧
    d !! "exhaleExecutesDoxygen" = Some (VBool true) ∧
    d !! "exhaleDoxygenStdin" = Some (VStr txt) ∧
    Doxygen.effective txt !! "INPUT" = Some "../src" ∧
    d !! "doxygenStripFromPath" = Some (VStr (abspath s "../src")) ∧
    Doxygen.effective txt !! "GENERATE_XML" = Some "YES" ∧
    Doxygen.effective txt !! "XML_OUTPUT" = Some xml ∧
    Doxygen.effective txt !! "PROJECT_NAME" = Some k ∧
    globals s' !! "breathe_default_project" = Some (VStr k) ∧
    globals s' !! "breathe_projects" = Some (VDict projects) ∧
    projects !! k = Some (VStr ("./" +:+ xml +:+ "/")).
Proof.
  destruct (conf_py_post s) as (s' & Hrun & Hget).
  exists s'; do 5 eexists; split; [exact Hrun|].
  split; [conf_lookup Hget|].
  do 7 (split; [vm_compute; reflexivity|]).
  split; [conf_lookup Hget|]. split; [conf_lookup Hget|]. reflexivity.
Qed.


(** X8: the link checker's patterns follow the rest of the configuration: the
    first is the repository address made of [html_context]'s [github_user] and
    [github_repo], followed by [/.*], and the literal part of the second is the
    start of the intersphinx target. *)
Theorem X8_linkcheck_follows_context (s : Interp) :
  ∃ s' r1 r2 r3 ctx user repo inv url rest, run conf_py s = (Ok tt, s') ∧
    globals s' !! "linkcheck_ignore" = Some (VList [VStr r1; VStr r2; VStr r3]) ∧
    globals s' !! "html_context" = Some (VDict ctx) ∧
    ctx !! "github_user" = Some (VStr user) ∧
    ctx !! "github_repo" = Some (VStr repo) ∧
    r1 = "https://github.com/" +:+ user +:+ "/" +:+ repo +:+ "/.*" ∧
    globals s' !! "intersphinx_mapping" = Some (VDict inv) ∧
    inv !! "python" = Some (VTuple [VStr url; VNone]) ∧
    r2 = "https://docs.python.org/" +:+ ".*" ∧
    url = "https://docs.python.org/" +:+ rest.
Proof.
  destruct (conf_py_post s) as (s' & Hrun & Hget).
  exists s'; do 9 eexists; split; [exact Hrun|].
  split; [conf_lookup Hget|]. split; [conf_lookup Hget|].
  do 3 (split; [reflexivity|]).
  split; [conf_lookup Hget|].
  split; [reflexivity|]. split; [reflexivity|].
  by instantiate (1 := "3/").
Qed.
